(** * The decentralized platform of [distributed-system.py]

    A shallow embedding of the orchestration code of
    [src/soulfra-scripts/distributed-system.py]: the sharding rule that
    [_setup_databases] registers, the operations of [DecentralizedPlatform]
    and the handlers of [DecentralizedAPIHandler].

    Python values are embedded as the inductive [pyval], exceptions as
    values of [exn]; a computation that may raise returns [res A].  The
    classes imported from the [database/] package
    ([UnifiedDatabaseLayer], [DecentralizedSearchEngine],
    [RuleEnforcementEngine]) are not part of the sources: the operations of
    the platform take their behaviour as an environment ([Env]) over an
    opaque collaborator state. *)

From Stdlib Require Import ZArith QArith Ascii String List Lia DecimalString.
From stdpp Require Import base option gmap strings list.

Set Warnings "-register-all".

Local Open Scope string_scope.
Local Open Scope Z_scope.

(** ** Python values and exceptions *)

Module Py.

(** The values that flow through the platform: what [json.loads] yields
    and what the handlers pass on.  A float is kept as the bit pattern of
    its IEEE-754 double; no arithmetic is done on it. *)
Inductive pyval : Type :=
  | PyNone
  | PyBool (b : bool)
  | PyInt (z : Z)
  | PyFloat (bits : Z)
  | PyStr (s : string)
  | PyList (l : list pyval)
  | PyDict (d : list (string * pyval)).

(** An exception: its class name and [str(e)]. *)
Record exn : Type := Exn { exn_class : string; exn_str : string }.

Inductive res (A : Type) : Type :=
  | Ok (a : A)
  | Raise (e : exn).
Arguments Ok {A} a.
Arguments Raise {A} e.

Definition res_bind {A B : Type} (r : res A) (k : A -> res B) : res B :=
  match r with
  | Ok a => k a
  | Raise e => Raise e
  end.

(** [bool(v)]: the truth value tested by [if v] and [not v]. *)
Definition truthy (v : pyval) : bool :=
  match v with
  | PyNone => false
  | PyBool b => b
  | PyInt z => negb (z =? 0)
  | PyFloat bits => negb ((bits =? 0) || (bits =? 2 ^ 63))
  | PyStr s => negb (String.eqb s "")
  | PyList l => match l with [] => false | _ :: _ => true end
  | PyDict d => match d with [] => false | _ :: _ => true end
  end.

(** [d.get(k)] on a dict held as its items in insertion order (each key
    once, as in a Python dict). *)
Fixpoint dict_get (k : string) (d : list (string * pyval)) : option pyval :=
  match d with
  | [] => None
  | (k', v) :: d' => if String.eqb k k' then Some v else dict_get k d'
  end.

(** [str(n)] for an int, as an f-string renders it. *)
Definition str_of_int (n : Z) : string := NilZero.string_of_int (Z.to_int n).

(** The hash functions of the running interpreter.  [hash] of a [str] is
    SipHash keyed by a seed drawn when the process starts
    (PYTHONHASHSEED), so it is fixed for a process and unknown here; the
    hash of [None] and of a float are likewise the interpreter's. *)
Record Runtime : Type := {
  str_hash : string -> Z;
  none_hash : Z;
  float_hash : Z -> Z
}.

(** [hash(n)] of an int on a 64-bit CPython: the value reduced modulo the
    Mersenne prime 2^61 - 1, with the sign kept and -1 avoided. *)
Definition int_hash (n : Z) : Z :=
  let m := Z.abs n mod (2 ^ 61 - 1) in
  let h := if n <? 0 then - m else m in
  if h =? -1 then -2 else h.

(** [hash(v)]: lists and dicts are unhashable. *)
Definition hash (rt : Runtime) (v : pyval) : res Z :=
  match v with
  | PyNone => Ok (none_hash rt)
  | PyBool b => Ok (if b then 1 else 0)
  | PyInt z => Ok (int_hash z)
  | PyFloat bits => Ok (float_hash rt bits)
  | PyStr s => Ok (str_hash rt s)
  | PyList _ => Raise (Exn "TypeError" "unhashable type: 'list'")
  | PyDict _ => Raise (Exn "TypeError" "unhashable type: 'dict'")
  end.

End Py.
Import Py.

(** ** The sharding rule of [_setup_databases] *)

Module Sharding.

(** [f"search_shard_{i}"] *)
Definition search_shard (i : Z) : string := "search_shard_" +:+ str_of_int i.

(** The lambda registered for collection ['search_index']:
    [lambda params: f"search_shard_{hash(params.get('doc_id', '')) % 4}"].
    Python's [%] with a positive modulus is [Z.modulo]. *)
Definition search_index_rule (rt : Runtime) (params : gmap string pyval)
  : res string :=
  res_bind (hash rt (default (PyStr "") (params !! "doc_id")))
           (fun h => Ok (search_shard (h mod 4))).

(** The names given to the four shard stores by
    [for i in range(4): add_database(f'search_shard_{i}', ...)]. *)
Definition shard_names : list string := map search_shard [0; 1; 2; 3].

End Sharding.
Import Sharding.

(** ** The store registry and the router *)

Module Federation.

(** [DatabaseConfig(type=..., connection_string=...)] as the source builds it. *)
Record DatabaseConfig : Type := {
  type : string;
  connection_string : string
}.

(** Modelled from the spec: the class [UnifiedDatabaseLayer] is imported
    from [database/unified_database_layer.py], which is not among the
    sources.  A StoreDescriptor has a store kind, a connection string and an
    online flag, and is keyed by its unique name. *)
Record StoreDescriptor : Type := {
  kind : string;
  connection : string;
  online : bool
}.

(** A routing function [(paramsMap) -> storeName]. *)
Definition routing_fn : Type := gmap string pyval -> res string.

(** Modelled from the spec: the layer holds the Store Registry (named
    store descriptors) and the Sharding Router's rule set (collection name
    to routing function). *)
Record UnifiedDatabaseLayer : Type := {
  databases : gmap string StoreDescriptor;
  sharding_rules : gmap string routing_fn
}.

(** Modelled from the spec: [UnifiedDatabaseLayer()], with nothing
    registered. *)
Definition new_layer : UnifiedDatabaseLayer :=
  {| databases := ∅; sharding_rules := ∅ |}.

(** Modelled from the spec: [register(descriptor)] adds or replaces a store
    by name (idempotent by name). *)
Definition add_database (name : string) (cfg : DatabaseConfig)
    (L : UnifiedDatabaseLayer) : UnifiedDatabaseLayer :=
  {| databases :=
       <[name := {| kind := type cfg;
                    connection := connection_string cfg;
                    online := false |}]> (databases L);
     sharding_rules := sharding_rules L |}.

(** Modelled from the spec: [addRule(collection, routingFn)], the last
    registration for a collection wins. *)
Definition add_sharding_rule (collection : string) (f : routing_fn)
    (L : UnifiedDatabaseLayer) : UnifiedDatabaseLayer :=
  {| databases := databases L;
     sharding_rules := <[collection := f]> (sharding_rules L) |}.

(** Modelled from the spec: [healthCheckAll()] probes every registered
    store, returns a name to boolean map with an entry for each, never
    fails as a whole, and sets each descriptor's online flag to the latest
    probe.  [probe] tells which stores answer. *)
Definition health_check_all (probe : string -> bool)
    (L : UnifiedDatabaseLayer) : gmap string bool * UnifiedDatabaseLayer :=
  (map_imap (fun name _ => Some (probe name)) (databases L),
   {| databases :=
        map_imap (fun name d =>
                    Some {| kind := kind d; connection := connection d;
                            online := probe name |}) (databases L);
      sharding_rules := sharding_rules L |}).

(** Modelled from the spec: [resolve(collection, params)] evaluates the
    registered function; it fails with [NoRuleDefined] if the collection
    has no rule and with [RoutingTargetUnknown] if the resolved name is not
    in the registry. *)
Definition resolve (collection : string) (params : gmap string pyval)
    (L : UnifiedDatabaseLayer) : res string :=
  match sharding_rules L !! collection with
  | None => Raise (Exn "NoRuleDefined" collection)
  | Some f =>
      res_bind (f params) (fun name =>
        match databases L !! name with
        | Some _ => Ok name
        | None => Raise (Exn "RoutingTargetUnknown" name)
        end)
  end.

Definition sqlite (conn : string) : DatabaseConfig :=
  {| type := "sqlite"; connection_string := conn |}.

(** [sum(1 for h in health.values() if h)] *)
Definition count_online (health : gmap string bool) : Z :=
  Z.of_nat (length (filter (fun kv => snd kv = true) (map_to_list health))).

(** [_setup_databases]: registers ['main'], the four shards
    ['search_shard_0'..'search_shard_3'] in the order of [range(4)], and
    ['monitoring']; registers the rule for ['search_index']; runs the first
    health sweep.  Returns the layer and the value stored in
    [monitoring_data['databases_online']]. *)
Definition _setup_databases (rt : Runtime) (probe : string -> bool)
    (L : UnifiedDatabaseLayer) : UnifiedDatabaseLayer * Z :=
  let L := add_database "main" (sqlite "soulfra_decentralized.db") L in
  let L :=
    fold_left
      (fun L i => add_database (search_shard i)
                               (sqlite (search_shard i +:+ ".db")) L)
      [0; 1; 2; 3] L in
  let L := add_database "monitoring" (sqlite "monitoring.db") L in
  let L := add_sharding_rule "search_index" (search_index_rule rt) L in
  let '(health, L) := health_check_all probe L in
  (L, count_online health).

End Federation.

(** ** The platform: state, collaborators and the monad of its methods *)

Module Platform.

(** [SearchQuery(query=..., filters=..., limit=...)] as [search] builds it. *)
Record SearchQuery : Type := {
  query : string;
  filters : pyval;
  limit : Z
}.

(** Modelled from the spec: a SearchResult, with the attributes that
    [search] reads ([r.id], [r.score], [r.title], [r.content],
    [r.metadata], [r.highlights]). *)
Record SearchResult : Type := {
  id : pyval;
  score : pyval;
  title : pyval;
  content : pyval;
  metadata : pyval;
  highlights : pyval
}.

(** Modelled from the spec: a Violation has a file path, a rule
    identifier, a severity, a description and an optional suggested fix.
    The source reads [v.severity] only and compares it with a string. *)
Record Violation : Type := {
  file_path : string;
  rule_id : string;
  severity : string;
  description : string;
  suggested_fix : option pyval
}.

(** The dict returned by [auto_fix_violations] and by [enforce_rules]
    ([{'fixed': 0, 'failed': 0}] when there is nothing to fix). *)
Record FixResults : Type := {
  fixed : Z;
  failed : Z
}.

(** [self.monitoring_data].  The keys set by [__init__] are always there;
    ['search_stats'] and ['rule_report'] appear with the first monitor
    tick.  [start_time] is a clock reading in microseconds. *)
Record MonitoringData : Type := {
  start_time : Z;
  queries_processed : Z;
  violations_fixed : Z;
  databases_online : Z;
  search_stats : option pyval;
  rule_report : option pyval
}.

(** The attributes of a [DecentralizedPlatform] that its own code reads
    and writes.  [db_layer], [search_engine] and [rule_engine] are objects
    of the imported classes: their state is the collaborator state [W]. *)
Record DecentralizedPlatform : Type := {
  monitoring_data : MonitoringData;
  running : bool
}.

(** A call made to one of the imported classes, with its arguments. *)
Inductive Call : Type :=
  | CallSearch (q : SearchQuery)
  | CallGetStats
  | CallScanFile (path : pyval)
  | CallScanDirectory (root : string) (patterns : option (list string))
  | CallAutoFix (violations : list Violation)
  | CallGenerateReport
  | CallFederatedSearch (sql params : pyval)
  | CallHealthCheckAll.

(** What the platform's code cannot see: the methods of the imported
    classes, each of which may return or raise and may change the
    collaborators' state; the clock; and the two standard-library parsers
    used by the handlers. *)
Record Env (W : Type) : Type := {
  search_engine_search : SearchQuery -> W -> res (list SearchResult) * W;
  search_engine_get_stats : W -> res pyval * W;
  rule_engine_scan_file : pyval -> W -> res (list Violation) * W;
  rule_engine_scan_directory :
    string -> option (list string) -> W ->
    res (list (string * list Violation)) * W;
  rule_engine_auto_fix_violations : list Violation -> W -> res FixResults * W;
  rule_engine_generate_report : W -> res pyval * W;
  db_layer_federated_search : pyval -> pyval -> W -> res (list pyval) * W;
  db_layer_health_check_all : W -> res (list (string * bool)) * W;
  datetime_now : W -> Z;
  json_loads : string -> res pyval;
  parse_qs : string -> gmap string (list string)
}.
Arguments search_engine_search {W}.
Arguments search_engine_get_stats {W}.
Arguments rule_engine_scan_file {W}.
Arguments rule_engine_scan_directory {W}.
Arguments rule_engine_auto_fix_violations {W}.
Arguments rule_engine_generate_report {W}.
Arguments db_layer_federated_search {W}.
Arguments db_layer_health_check_all {W}.
Arguments datetime_now {W}.
Arguments json_loads {W}.
Arguments parse_qs {W}.

(** The whole state a method runs in: the platform object, the
    collaborators, and the log of the calls made to them so far. *)
Record State (W : Type) : Type := {
  platform : DecentralizedPlatform;
  world : W;
  calls : list Call
}.
Arguments platform {W}.
Arguments world {W}.
Arguments calls {W}.

(** A method: it runs in a state, returns or raises, and leaves a state.
    What was written before an exception stays written. *)
Definition M (W A : Type) : Type := State W -> res A * State W.

Definition ret {W A : Type} (a : A) : M W A := fun s => (Ok a, s).

Definition raise {W A : Type} (e : exn) : M W A := fun s => (Raise e, s).

Definition bind {W A B : Type} (m : M W A) (k : A -> M W B) : M W B :=
  fun s =>
    match m s with
    | (Ok a, s') => k a s'
    | (Raise e, s') => (Raise e, s')
    end.

Notation "'let!' x ':=' m 'in' k" := (bind m (fun x => k))
  (at level 10, x name, m at level 200, k at level 200, only parsing).

(** [await collaborator.method(args)]: logged, then run on the
    collaborators' state. *)
Definition call {W A : Type} (c : Call) (f : W -> res A * W) : M W A :=
  fun s =>
    let '(r, w) := f (world s) in
    (r, {| platform := platform s; world := w; calls := calls s ++ [c] |}).

(** An in-place update of [self.monitoring_data]. *)
Definition update_monitoring {W : Type} (f : MonitoringData -> MonitoringData)
  : M W unit :=
  fun s =>
    (Ok tt,
     {| platform := {| monitoring_data := f (monitoring_data (platform s));
                       running := running (platform s) |};
        world := world s; calls := calls s |}).

Definition set_running {W : Type} (b : bool) (s : State W) : State W :=
  {| platform := {| monitoring_data := monitoring_data (platform s);
                    running := b |};
     world := world s; calls := calls s |}.

Definition set_queries_processed (n : Z) (md : MonitoringData) :=
  {| start_time := start_time md; queries_processed := n;
     violations_fixed := violations_fixed md;
     databases_online := databases_online md;
     search_stats := search_stats md; rule_report := rule_report md |}.

Definition set_violations_fixed (n : Z) (md : MonitoringData) :=
  {| start_time := start_time md; queries_processed := queries_processed md;
     violations_fixed := n;
     databases_online := databases_online md;
     search_stats := search_stats md; rule_report := rule_report md |}.

Definition set_databases_online (n : Z) (md : MonitoringData) :=
  {| start_time := start_time md; queries_processed := queries_processed md;
     violations_fixed := violations_fixed md;
     databases_online := n;
     search_stats := search_stats md; rule_report := rule_report md |}.

Definition set_search_stats (v : pyval) (md : MonitoringData) :=
  {| start_time := start_time md; queries_processed := queries_processed md;
     violations_fixed := violations_fixed md;
     databases_online := databases_online md;
     search_stats := Some v; rule_report := rule_report md |}.

Definition set_rule_report (v : pyval) (md : MonitoringData) :=
  {| start_time := start_time md; queries_processed := queries_processed md;
     violations_fixed := violations_fixed md;
     databases_online := databases_online md;
     search_stats := search_stats md; rule_report := Some v |}.

(** [DecentralizedPlatform.__init__]: the state of a platform object that
    has not been initialized. *)
Definition __init__ (now : Z) : DecentralizedPlatform :=
  {| monitoring_data :=
       {| start_time := now; queries_processed := 0; violations_fixed := 0;
          databases_online := 0; search_stats := None; rule_report := None |};
     running := false |}.

(** *** The methods of [DecentralizedPlatform] *)

Section Methods.

Context {W : Type} (env : Env W).

(** [v.severity == 'critical'] *)
Definition is_critical (v : Violation) : bool :=
  String.eqb (severity v) "critical".

(** The list built by the loop of [_initial_rule_scan]:
    for each value of the dict, in its order, the violations of severity
    ['critical'] are appended. *)
Definition critical_of (violations : list (string * list Violation))
  : list Violation :=
  flat_map (fun fv => List.filter is_critical (snd fv)) violations.

(** [_initial_rule_scan] *)
Definition _initial_rule_scan : M W unit :=
  let! violations :=
    call (CallScanDirectory "." (Some ["*.py"; "*.js"]))
         (rule_engine_scan_directory env "." (Some ["*.py"; "*.js"])) in
  let critical_violations := critical_of violations in
  match critical_violations with
  | [] => ret tt
  | _ :: _ =>
      let! fix_results :=
        call (CallAutoFix critical_violations)
             (rule_engine_auto_fix_violations env critical_violations) in
      update_monitoring (set_violations_fixed (fixed fix_results))
  end.

(** [sum(1 for h in health.values() if h)] *)
Definition online_count (health : list (string * bool)) : Z :=
  Z.of_nat (length (List.filter (fun h => snd h) health)).

(** One pass through the body of [monitor_loop], up to the sleep.  No
    statement of the body is inside a [try]. *)
Definition monitor_tick : M W unit :=
  let! health := call CallHealthCheckAll (db_layer_health_check_all env) in
  let! _ := update_monitoring
              (set_databases_online (online_count health)) in
  let! search_stats := call CallGetStats (search_engine_get_stats env) in
  let! _ := update_monitoring (set_search_stats search_stats) in
  let! rule_report :=
    call CallGenerateReport (rule_engine_generate_report env) in
  update_monitoring (set_rule_report rule_report).

(** [monitor_loop], run for at most [n] passes with nothing else scheduled
    in between: [while self.running: <tick>; await asyncio.sleep(60)].  An
    exception raised in a pass ends the task. *)
Fixpoint monitor_loop (n : nat) : M W unit :=
  match n with
  | O => ret tt
  | S n' =>
      fun s =>
        if running (platform s)
        then (let! _ := monitor_tick in monitor_loop n') s
        else (Ok tt, s)
  end.

(** [_start_monitoring], up to the creation of the task: [self.running = True]. *)
Definition _start_monitoring : M W unit :=
  fun s => (Ok tt, set_running true s).

(** The dict that [search] builds from a result. *)
Definition result_dict (r : SearchResult) : pyval :=
  PyDict [("id", id r); ("score", score r); ("title", title r);
          ("content", content r); ("metadata", metadata r);
          ("highlights", highlights r)].

(** [search(query, filters)] *)
Definition search (q : string) (fs : pyval) : M W (list pyval) :=
  let search_query := {| query := q; filters := fs; limit := 50 |} in
  let! results :=
    call (CallSearch search_query) (search_engine_search env search_query) in
  let! _ :=
    update_monitoring
      (fun md => set_queries_processed (queries_processed md + 1) md) in
  ret (map result_dict results).

(** [enforce_rules(file_path)] *)
Definition enforce_rules (path : pyval) : M W FixResults :=
  if truthy path then
    let! violations :=
      call (CallScanFile path) (rule_engine_scan_file env path) in
    match violations with
    | _ :: _ =>
        let! fix_results :=
          call (CallAutoFix violations)
               (rule_engine_auto_fix_violations env violations) in
        ret fix_results
    | [] => ret {| fixed := 0; failed := 0 |}
    end
  else
    let! violations :=
      call (CallScanDirectory "." None)
           (rule_engine_scan_directory env "." None) in
    let all_violations := flat_map snd violations in
    match all_violations with
    | _ :: _ =>
        let! fix_results :=
          call (CallAutoFix all_violations)
               (rule_engine_auto_fix_violations env all_violations) in
        let! _ :=
          update_monitoring
            (fun md =>
               set_violations_fixed
                 (violations_fixed md + fixed fix_results) md) in
        ret fix_results
    | [] => ret {| fixed := 0; failed := 0 |}
    end.

(** [query_database(sql, params)] *)
Definition query_database (sql params : pyval) : M W (list pyval) :=
  let! results :=
    call (CallFederatedSearch sql params)
         (db_layer_federated_search env sql params) in
  ret results.

(** The dict returned by [get_status]; [uptime_seconds] is the difference
    of two clock readings in microseconds, over 10^6. *)
Record PlatformStatus : Type := {
  status : string;
  uptime_seconds : Q;
  status_databases_online : Z;
  status_queries_processed : Z;
  status_violations_fixed : Z;
  status_search_stats : pyval;
  status_rule_report : pyval
}.

(** [get_status()] *)
Definition get_status : M W PlatformStatus :=
  fun s =>
    let md := monitoring_data (platform s) in
    let uptime := Qmake (datetime_now env (world s) - start_time md) 1000000 in
    (Ok {| status := "online";
           uptime_seconds := uptime;
           status_databases_online := databases_online md;
           status_queries_processed := queries_processed md;
           status_violations_fixed := violations_fixed md;
           status_search_stats := default (PyDict []) (search_stats md);
           status_rule_report := default (PyDict []) (rule_report md) |},
     s).

(** *** The handlers of [DecentralizedAPIHandler] *)

(** What a handler writes with [json.dumps]. *)
Inductive Payload : Type :=
  | StatusJson (st : PlatformStatus)
  | ResultsJson (results : list pyval)
  | FixJson (f : FixResults)
  | RowsJson (rows : list pyval).

(** What a handler sends: [send_error(code, message)], or
    [send_response(code)] followed by the JSON body. *)
Inductive Response : Type :=
  | SendError (code : Z) (message : string)
  | SendJson (code : Z) (payload : Payload).


(** How a handler ends: it sent a response, or an exception left it
    uncaught and nothing was sent. *)
Inductive Handled : Type :=
  | Responded (r : Response)
  | Unhandled (e : exn).

Definition Handler : Type := State W -> Handled * State W.

(** [loop.run_until_complete(op)] in a handler with no [try] around it. *)
Definition uncaught {A : Type} (op : M W A) (k : A -> Response) : Handler :=
  fun s =>
    match op s with
    | (Ok a, s') => (Responded (k a), s')
    | (Raise e, s') => (Unhandled e, s')
    end.

(** [try: ... except Exception as e: self.send_error(500, str(e))] *)
Definition try_500 (body : M W Response) : Handler :=
  fun s =>
    match body s with
    | (Ok r, s') => (Responded r, s')
    | (Raise e, s') => (Responded (SendError 500 (exn_str e)), s')
    end.

(** [data.get(key)]: only a dict has the method. *)
Definition py_get (data : pyval) (key : string) : res (option pyval) :=
  match data with
  | PyDict d => Ok (dict_get key d)
  | _ => Raise (Exn "AttributeError" "object has no attribute 'get'")
  end.

Definition lift {A : Type} (r : res A) : M W A := fun s => (r, s).

(** [_handle_status] *)
Definition _handle_status : Handler :=
  uncaught get_status (fun st => SendJson 200 (StatusJson st)).

(** [params.get('q', [''])[0]] *)
Definition first_q (params : gmap string (list string)) : res string :=
  match default [""] (params !! "q") with
  | q :: _ => Ok q
  | [] => Raise (Exn "IndexError" "list index out of range")
  end.

(** [_handle_search(parsed_path)], on the query component of the parsed
    path. *)
Definition _handle_search (parsed_query : string) : Handler :=
  fun s =>
    let params := parse_qs env parsed_query in
    match first_q params with
    | Raise e => (Unhandled e, s)
    | Ok q =>
        if String.eqb q ""
        then (Responded (SendError 400 "Missing query parameter"), s)
        else uncaught (search q PyNone)
                      (fun results => SendJson 200 (ResultsJson results)) s
    end.

(** [_handle_enforce], on the bytes read from the request. *)
Definition _handle_enforce (post_data : string) : Handler :=
  try_500
    (let! data :=
       lift (if String.eqb post_data "" then Ok (PyDict [])
             else json_loads env post_data) in
     let! path := lift (py_get data "file_path") in
     let! results := enforce_rules (default PyNone path) in
     ret (SendJson 200 (FixJson results))).

(** [_handle_query], on the bytes read from the request. *)
Definition _handle_query (post_data : string) : Handler :=
  try_500
    (let! data := lift (json_loads env post_data) in
     let! sql := lift (py_get data "sql") in
     let! params := lift (py_get data "params") in
     if negb (truthy (default PyNone sql))
     then ret (SendError 400 "Missing SQL query")
     else
       let! results :=
         query_database (default PyNone sql) (default (PyDict []) params) in
       ret (SendJson 200 (RowsJson results))).

(** [do_GET] and [do_POST], on the path and query components that
    [urlparse(self.path)] yields. *)
Definition do_GET (path parsed_query : string) : Handler :=
  if String.eqb path "/status" then _handle_status
  else if String.eqb path "/search" then _handle_search parsed_query
  else fun s => (Responded (SendError 404 "Not Found"), s).

Definition do_POST (path post_data : string) : Handler :=
  if String.eqb path "/enforce" then _handle_enforce post_data
  else if String.eqb path "/query" then _handle_query post_data
  else fun s => (Responded (SendError 404 "Not Found"), s).

End Methods.

End Platform.

(** ** Notions used to state the properties *)

Module Notions.

Import Platform.

(** A method that never looks at [self.running]: run with the flag forced
    to [b], it returns what it returns otherwise and leaves the same state,
    flag apart. *)
Definition ignores_running {W A : Type} (m : M W A) : Prop :=
  forall (b : bool) (s : State W),
    m (set_running b s) = (fst (m s), set_running b (snd (m s))).

(** The monitoring data in a state. *)
Definition data {W : Type} (s : State W) : MonitoringData :=
  monitoring_data (platform s).

(** The state reached from [s] once the calls [cs] have been made,
    leaving the collaborators in [w], and the data updated by [f]. *)
Definition after {W : Type} (s : State W) (w : W) (cs : list Call)
    (f : MonitoringData -> MonitoringData) : State W :=
  {| platform := {| monitoring_data := f (data s);
                    running := running (platform s) |};
     world := w;
     calls := calls s ++ cs |}.

End Notions.

(** ** Concrete runs

    Collaborators with no state of their own ([W = unit]) and fixed
    answers, used to run the methods on explicit inputs. *)

Module Scenarios.

Import Platform.

(** An interpreter whose string hash is the length of the string. *)
Definition length_runtime : Runtime :=
  {| str_hash := fun s => Z.of_nat (String.length s);
     none_hash := 0;
     float_hash := fun bits => bits |}.

Definition a_result : SearchResult :=
  {| id := PyStr "a.py"; score := PyInt 2; title := PyStr "a.py";
     content := PyStr "consciousness"; metadata := PyDict [];
     highlights := PyList [PyStr "consciousness"] |}.

Definition violation (path sev : string) : Violation :=
  {| file_path := path; rule_id := "R1"; severity := sev;
     description := "finding"; suggested_fix := Some (PyStr "patch") |}.

(** The findings of a directory scan: two files, three severities. *)
Definition tree_findings : list (string * list Violation) :=
  [("a.py", [violation "a.py" "critical"; violation "a.py" "warning"]);
   ("b.js", [violation "b.js" "info"; violation "b.js" "critical"])].

Definition dq : string := String "034"%char EmptyString.

(** The request bodies [{"sql": "SELECT 1"}] and [{"query": "SELECT 1"}]. *)
Definition body_sql : string :=
  "{" +:+ dq +:+ "sql" +:+ dq +:+ ": " +:+ dq +:+ "SELECT 1" +:+ dq +:+ "}".

Definition body_query : string :=
  "{" +:+ dq +:+ "query" +:+ dq +:+ ": " +:+ dq +:+ "SELECT 1" +:+ dq +:+ "}".

(** [json.loads] on the two bodies above; anything else is taken not to
    parse. *)
Definition json_loads_table (post_data : string) : res pyval :=
  if String.eqb post_data body_sql
  then Ok (PyDict [("sql", PyStr "SELECT 1")])
  else if String.eqb post_data body_query
  then Ok (PyDict [("query", PyStr "SELECT 1")])
  else Raise (Exn "JSONDecodeError" "Expecting value").

(** [parse_qs] on the query strings used below: [q=hello] has one value,
    a blank value ([q=]) is dropped, and so is everything else. *)
Definition parse_qs_table (parsed_query : string) : gmap string (list string) :=
  if String.eqb parsed_query "q=hello" then {["q" := ["hello"]]} else ∅.

Definition shard_down : exn := Exn "RuntimeError" "shard unavailable".

(** Collaborators that all answer; every fix succeeds. *)
Definition answering : Env unit :=
  {| search_engine_search := fun _ w => (Ok [a_result], w);
     search_engine_get_stats := fun w => (Ok (PyDict [("documents", PyInt 3)]), w);
     rule_engine_scan_file :=
       fun _ w => (Ok [violation "a.py" "critical"], w);
     rule_engine_scan_directory := fun _ _ w => (Ok tree_findings, w);
     rule_engine_auto_fix_violations :=
       fun vs w => (Ok {| fixed := Z.of_nat (length vs); failed := 0 |}, w);
     rule_engine_generate_report :=
       fun w => (Ok (PyDict [("rules", PyInt 1)]), w);
     db_layer_federated_search :=
       fun _ _ w => (Ok [PyDict [("1", PyInt 1)]], w);
     db_layer_health_check_all :=
       fun w => (Ok [("main", true); ("monitoring", false)], w);
     datetime_now := fun _ => 5000000;
     json_loads := json_loads_table;
     parse_qs := parse_qs_table |}.

(** The same collaborators, with a search engine that raises. *)
Definition search_failing : Env unit :=
  {| search_engine_search := fun _ w => (Raise shard_down, w);
     search_engine_get_stats := search_engine_get_stats answering;
     rule_engine_scan_file := rule_engine_scan_file answering;
     rule_engine_scan_directory := rule_engine_scan_directory answering;
     rule_engine_auto_fix_violations :=
       rule_engine_auto_fix_violations answering;
     rule_engine_generate_report := rule_engine_generate_report answering;
     db_layer_federated_search := db_layer_federated_search answering;
     db_layer_health_check_all := db_layer_health_check_all answering;
     datetime_now := datetime_now answering;
     json_loads := json_loads_table;
     parse_qs := parse_qs_table |}.

(** The same collaborators, with a search engine whose [get_stats] raises. *)
Definition stats_failing : Env unit :=
  {| search_engine_search := search_engine_search answering;
     search_engine_get_stats := fun w => (Raise shard_down, w);
     rule_engine_scan_file := rule_engine_scan_file answering;
     rule_engine_scan_directory := rule_engine_scan_directory answering;
     rule_engine_auto_fix_violations :=
       rule_engine_auto_fix_violations answering;
     rule_engine_generate_report := rule_engine_generate_report answering;
     db_layer_federated_search := db_layer_federated_search answering;
     db_layer_health_check_all := db_layer_health_check_all answering;
     datetime_now := datetime_now answering;
     json_loads := json_loads_table;
     parse_qs := parse_qs_table |}.

(** A platform object as [__init__] leaves it at time 0, before any call. *)
Definition fresh : State unit :=
  {| platform := __init__ 0; world := tt; calls := [] |}.

(** The platform once [_start_monitoring] has set the flag. *)
Definition ready : State unit := set_running true fresh.

(** The platform once [platform.running = False] has run. *)
Definition stopped : State unit := set_running false ready.

End Scenarios.

(** ** Start-up: [initialize] and the steps it runs *)

Module Startup.

Import Platform.

(** [needle in hay] on strings: an occurrence anywhere. *)
Definition py_in (needle hay : string) : bool :=
  match String.index 0 needle hay with
  | Some _ => true
  | None => false
  end.

(** The literals of the skip test of [_index_codebase]. *)
Definition skip_words : list string := ["__pycache__"; "venv"; ".git"].

(** [any(skip in str(file_path) for skip in ['__pycache__', 'venv', '.git'])] *)
Definition skipped (file_path : string) : bool :=
  existsb (fun skip => py_in skip file_path) skip_words.

(** What start-up uses besides [Env]: the file system as [pathlib]
    shows it, the date formatting, and three more methods of the imported
    classes.  [rglob] gives the paths the generator yields, in order, and
    the exception that ends the iteration if one does; [stat] gives
    [st_size] and [st_mtime]. *)
Record Files (W : Type) : Type := {
  rglob : string -> W -> (list string * option exn) * W;
  read_text : string -> W -> res string * W;
  stat : string -> W -> res (Z * Z) * W;
  fromtimestamp_isoformat : Z -> res string;
  search_engine_index_document :
    string -> string -> pyval -> W -> res unit * W;
  db_layer_add_database :
    string -> Federation.DatabaseConfig -> W -> res unit * W;
  db_layer_add_sharding_rule :
    string -> Federation.routing_fn -> W -> res unit * W
}.
Arguments rglob {W}.
Arguments read_text {W}.
Arguments stat {W}.
Arguments fromtimestamp_isoformat {W}.
Arguments search_engine_index_document {W}.
Arguments db_layer_add_database {W}.
Arguments db_layer_add_sharding_rule {W}.

(** A step on the collaborators' state that the call log does not record. *)
Definition on_world {W A : Type} (f : W -> res A * W) : M W A :=
  fun s =>
    let '(r, w) := f (world s) in
    (r, {| platform := platform s; world := w; calls := calls s |}).

Section Steps.

Context {W : Type} (env : Env W) (files : Files W).

(** The body of the [try] of [_index_codebase] for one file, up to the
    increment of the count: read the text, build the metadata (two calls
    of [stat]), index the document under [str(file_path)]. *)
Definition index_file (file_path : string) : M W unit :=
  let! content := on_world (read_text files file_path) in
  let! st_size := on_world (stat files file_path) in
  let! st_mtime := on_world (stat files file_path) in
  let! modified := lift (fromtimestamp_isoformat files (snd st_mtime)) in
  let metadata :=
    PyDict [("file_type", PyStr "python"); ("size", PyInt (fst st_size));
            ("modified", PyStr modified); ("path", PyStr file_path)] in
  on_world (search_engine_index_document files file_path content metadata).

(** The [for] loop of [_index_codebase] over the paths yielded: a skipped
    path is passed over; what the body raises is caught and logged and the
    loop goes on.  The result is [indexed_count]. *)
Fixpoint index_files (paths : list string) (indexed_count : Z) : M W Z :=
  match paths with
  | [] => ret indexed_count
  | file_path :: rest =>
      if skipped file_path then index_files rest indexed_count
      else
        fun s =>
          match index_file file_path s with
          | (Ok _, s') => index_files rest (indexed_count + 1) s'
          | (Raise _, s') => index_files rest indexed_count s'
          end
  end.

(** [_index_codebase]; the value returned is the count that the method
    logs when the loop is over.  An exception raised by the generator
    itself is outside the [try]. *)
Definition _index_codebase : M W Z :=
  fun s =>
    let '((paths, stop), w) := rglob files "*.py" (world s) in
    let s1 := {| platform := platform s; world := w; calls := calls s |} in
    match stop with
    | None => index_files paths 0 s1
    | Some e => (Raise e, snd (index_files paths 0 s1))
    end.

(** The loop [for i in range(4)] of [_setup_databases]. *)
Fixpoint add_shards (shards : list Z) : M W unit :=
  match shards with
  | [] => ret tt
  | i :: rest =>
      let! _ :=
        on_world (db_layer_add_database files (search_shard i)
                    (Federation.sqlite (search_shard i +:+ ".db"))) in
      add_shards rest
  end.

(** [_setup_databases], over collaborators that may raise. *)
Definition _setup_databases (rt : Runtime) : M W unit :=
  let! _ :=
    on_world (db_layer_add_database files "main"
                (Federation.sqlite "soulfra_decentralized.db")) in
  let! _ := add_shards [0; 1; 2; 3] in
  let! _ :=
    on_world (db_layer_add_database files "monitoring"
                (Federation.sqlite "monitoring.db")) in
  let! _ :=
    on_world (db_layer_add_sharding_rule files "search_index"
                (search_index_rule rt)) in
  let! health := call CallHealthCheckAll (db_layer_health_check_all env) in
  update_monitoring (set_databases_online (online_count health)).

(** [initialize] *)
Definition initialize (rt : Runtime) : M W unit :=
  let! _ := _setup_databases rt in
  let! _ := _index_codebase in
  let! _ := _initial_rule_scan env in
  _start_monitoring.

End Steps.

End Startup.

(** ** Frames *)

Module Frames.

Import Platform.

(** [m] takes every state to one related to it by [R], whether it returns
    or raises. *)
Definition respects {W A : Type} (R : State W -> State W -> Prop)
    (m : M W A) : Prop :=
  forall s : State W, R s (snd (m s)).

(** The running flag, the query counter and the start time are the same in
    both states. *)
Definition same_flag_and_queries {W : Type} (s s' : State W) : Prop :=
  running (platform s') = running (platform s)
  /\ queries_processed (monitoring_data (platform s'))
     = queries_processed (monitoring_data (platform s))
  /\ start_time (monitoring_data (platform s'))
     = start_time (monitoring_data (platform s)).

(** The platform object and the call log are the same in both states. *)
Definition same_platform {W : Type} (s s' : State W) : Prop :=
  platform s' = platform s /\ calls s' = calls s.

(** The three calls of a monitor tick. *)
Definition tick_calls : list Call :=
  [CallHealthCheckAll; CallGetStats; CallGenerateReport].

(** [not any(skip in str(file_path) ...)]: the paths the loop works on. *)
Definition kept (paths : list string) : list string :=
  List.filter (fun file_path => negb (Startup.skipped file_path)) paths.

End Frames.

(** ** More concrete runs *)

Module MoreScenarios.

Import Platform Startup Scenarios.

(** Collaborators as in [answering], with a rule engine whose scans raise. *)
Definition scan_failing : Env unit :=
  {| search_engine_search := search_engine_search answering;
     search_engine_get_stats := search_engine_get_stats answering;
     rule_engine_scan_file := fun _ w => (Raise shard_down, w);
     rule_engine_scan_directory := fun _ _ w => (Raise shard_down, w);
     rule_engine_auto_fix_violations :=
       rule_engine_auto_fix_violations answering;
     rule_engine_generate_report := rule_engine_generate_report answering;
     db_layer_federated_search := db_layer_federated_search answering;
     db_layer_health_check_all := db_layer_health_check_all answering;
     datetime_now := datetime_now answering;
     json_loads := json_loads_table;
     parse_qs := parse_qs_table |}.

(** A platform that has fixed seven violations so far. *)
Definition seven_fixed : State unit :=
  {| platform :=
       {| monitoring_data := set_violations_fixed 7 (monitoring_data (__init__ 0));
          running := true |};
     world := tt; calls := [] |}.

(** A tree of three Python files: one is unreadable, one lies under
    [.github]. *)
Definition tree : list string :=
  ["app.py"; "broken.py"; ".github/scripts/check.py"].

(** A file system over that tree; every store and every document is
    accepted. *)
Definition disk : Files unit :=
  {| rglob := fun _ w => ((tree, None), w);
     read_text :=
       fun path w =>
         if String.eqb path "broken.py"
         then (Raise (Exn "PermissionError" "Permission denied"), w)
         else (Ok "import os", w);
     stat := fun _ w => (Ok (9, 1700000000), w);
     fromtimestamp_isoformat := fun _ => Ok "2023-11-14T22:13:20";
     search_engine_index_document := fun _ _ _ w => (Ok tt, w);
     db_layer_add_database := fun _ _ w => (Ok tt, w);
     db_layer_add_sharding_rule := fun _ _ w => (Ok tt, w) |}.

(** The same file system, with a layer that refuses the monitoring store. *)
Definition disk_refusing : Files unit :=
  {| rglob := rglob disk;
     read_text := read_text disk;
     stat := stat disk;
     fromtimestamp_isoformat := fromtimestamp_isoformat disk;
     search_engine_index_document := search_engine_index_document disk;
     db_layer_add_database :=
       fun name _ w =>
         if String.eqb name "monitoring"
         then (Raise (Exn "OperationalError" "unable to open database file"), w)
         else (Ok tt, w);
     db_layer_add_sharding_rule := db_layer_add_sharding_rule disk |}.

End MoreScenarios.

(** * Properties *)

(** ** Routing *)

Section Routing.

Import Federation Scenarios.

Lemma mod_4_cases (h : Z) :
  h mod 4 = 0 \/ h mod 4 = 1 \/ h mod 4 = 2 \/ h mod 4 = 3.
Proof. pose proof (Z.mod_pos_bound h 4). lia. Qed.

Lemma search_shard_mod_4 (h : Z) : In (search_shard (h mod 4)) shard_names.
Proof.
  destruct (mod_4_cases h) as [E | [E | [E | E]]]; rewrite E; cbn; tauto.
Qed.

Example shard_names_are :
  shard_names =
  ["search_shard_0"; "search_shard_1"; "search_shard_2"; "search_shard_3"].
Proof. reflexivity. Qed.

Lemma rule_of_string (rt : Runtime) (params : gmap string pyval) (s : string) :
  default (PyStr "") (params !! "doc_id") = PyStr s ->
  search_index_rule rt params = Ok (search_shard (str_hash rt s mod 4)).
Proof. unfold search_index_rule. intros ->. reflexivity. Qed.

(** C1. The rule registered for ['search_index'] is a function of the
    value found under ['doc_id'] alone: two params maps that hold the same
    value there (in particular the same map, evaluated twice) are sent to
    the same store, and for a string id that store is
    [search_shard_(hash(id) mod 4)], [hash] being the interpreter's. *)
Theorem search_index_rule_deterministic
    (rt : Runtime) (p1 p2 : gmap string pyval) :
  p1 !! "doc_id" = p2 !! "doc_id" ->
  search_index_rule rt p1 = search_index_rule rt p2
  /\ forall doc_id : string,
       p1 !! "doc_id" = Some (PyStr doc_id) ->
       search_index_rule rt p2 = Ok (search_shard (str_hash rt doc_id mod 4)).
Proof.
  intros E. split.
  - unfold search_index_rule. now rewrite E.
  - intros doc_id H. apply rule_of_string. now rewrite <- E, H.
Qed.

Lemma search_index_rule_deterministic_witness :
  search_index_rule length_runtime {["doc_id" := PyStr "a.py"]}
  = search_index_rule length_runtime
      (<["limit" := PyInt 5]> {["doc_id" := PyStr "a.py"]})
  /\ search_index_rule length_runtime
       (<["limit" := PyInt 5]> {["doc_id" := PyStr "a.py"]})
     = Ok "search_shard_0".
Proof.
  assert (agree : ({["doc_id" := PyStr "a.py"]} : gmap string pyval)
                  !! "doc_id"
                  = (<["limit" := PyInt 5]> {["doc_id" := PyStr "a.py"]}
                     : gmap string pyval) !! "doc_id") by reflexivity.
  destruct (search_index_rule_deterministic length_runtime _ _ agree)
    as [same shard].
  split; [exact same | apply (shard "a.py"); reflexivity].
Defined.

Lemma is_Some_bind_Some {A B : Type} (o : option A) (f : A -> B) :
  is_Some o -> is_Some (o ≫= fun a => Some (f a)).
Proof. intros [a ->]. cbn. eauto. Qed.

(** The stores registered by [_setup_databases], whatever was registered
    before and whatever the probes answer. *)
Lemma setup_registers (rt : Runtime) (probe : string -> bool)
    (L : UnifiedDatabaseLayer) (name : string) :
  In name ("main" :: "monitoring" :: shard_names) ->
  is_Some (databases (fst (_setup_databases rt probe L)) !! name).
Proof.
  intros Hin. unfold _setup_databases, health_check_all. cbn.
  rewrite map_lookup_imap. apply is_Some_bind_Some.
  cbn in Hin.
  repeat match goal with
         | H : _ \/ _ |- _ => destruct H as [<- | H]
         | H : False |- _ => destruct H
         end;
    repeat (rewrite lookup_insert; case_decide; [eauto | ]); congruence.
Qed.

Lemma setup_rule (rt : Runtime) (probe : string -> bool)
    (L : UnifiedDatabaseLayer) :
  sharding_rules (fst (_setup_databases rt probe L)) !! "search_index"
  = Some (search_index_rule rt).
Proof. unfold _setup_databases. cbn. apply lookup_insert_eq. Qed.

(** C2. After [_setup_databases], for a params map whose ['doc_id'] is a
    string or is missing, the rule of ['search_index'] returns one of the
    four names [search_shard_0] .. [search_shard_3], that name is a
    registered store, and resolving the collection succeeds with it: the
    unknown-target error is not reached. *)
Theorem search_index_rule_target_registered
    (rt : Runtime) (probe : string -> bool) (L : UnifiedDatabaseLayer)
    (params : gmap string pyval) :
  (params !! "doc_id" = None \/
   exists doc_id : string, params !! "doc_id" = Some (PyStr doc_id)) ->
  exists name : string,
    search_index_rule rt params = Ok name
    /\ In name ["search_shard_0"; "search_shard_1";
                "search_shard_2"; "search_shard_3"]
    /\ is_Some (databases (fst (_setup_databases rt probe L)) !! name)
    /\ resolve "search_index" params (fst (_setup_databases rt probe L))
       = Ok name.
Proof.
  intros Hid.
  assert (Hstr : exists s, default (PyStr "") (params !! "doc_id") = PyStr s).
  { destruct Hid as [-> | [s ->]]; cbn; eauto. }
  destruct Hstr as [s Hs].
  pose proof (search_shard_mod_4 (str_hash rt s)) as Hin.
  pose proof (rule_of_string rt params s Hs) as Hrule.
  assert (Hreg : is_Some (databases (fst (_setup_databases rt probe L))
                            !! search_shard (str_hash rt s mod 4))).
  { apply setup_registers. right. right. exact Hin. }
  exists (search_shard (str_hash rt s mod 4)).
  split; [exact Hrule | ]. split; [exact Hin | ]. split; [exact Hreg | ].
  unfold resolve. rewrite setup_rule, Hrule. unfold res_bind.
  destruct Hreg as [d ->]. reflexivity.
Qed.

Lemma search_index_rule_target_registered_witness :
  exists name : string,
    search_index_rule length_runtime ∅ = Ok name
    /\ In name ["search_shard_0"; "search_shard_1";
                "search_shard_2"; "search_shard_3"]
    /\ is_Some (databases
                  (fst (_setup_databases length_runtime (fun _ => true)
                          new_layer)) !! name)
    /\ resolve "search_index" ∅
         (fst (_setup_databases length_runtime (fun _ => true) new_layer))
       = Ok name.
Proof.
  apply (search_index_rule_target_registered length_runtime (fun _ => true)
           new_layer ∅).
  left. reflexivity.
Defined.

End Routing.

(** ** The platform's methods *)

Section PlatformMethods.

Import Platform Notions Scenarios.

Context {W : Type} (env : Env W).

Lemma ignores_running_ret {A : Type} (a : A) :
  ignores_running (ret a : M W A).
Proof. intros b s. reflexivity. Qed.

Lemma ignores_running_call {A : Type} (c : Call) (f : W -> res A * W) :
  ignores_running (call c f).
Proof. intros b s. unfold call. cbn. now destruct (f (world s)). Qed.

Lemma ignores_running_update (f : MonitoringData -> MonitoringData) :
  ignores_running (update_monitoring f : M W unit).
Proof. intros b s. reflexivity. Qed.

Lemma ignores_running_bind {A B : Type} (m : M W A) (k : A -> M W B) :
  ignores_running m -> (forall a, ignores_running (k a)) ->
  ignores_running (bind m k).
Proof.
  intros Hm Hk b s. unfold bind. rewrite Hm.
  destruct (m s) as [[a | e] s']; cbn; [apply Hk | reflexivity].
Qed.

Create HintDb running.

#[local] Hint Resolve ignores_running_ret ignores_running_call
  ignores_running_update : running.

Ltac ignores_running :=
  repeat first
    [ apply ignores_running_bind; [ | intros ? ]
    | match goal with
      | |- ignores_running (match ?x with _ => _ end) => destruct x
      end
    | solve [ auto with running ] ].

Lemma search_ignores_running (q : string) (fs : pyval) :
  ignores_running (search env q fs).
Proof. unfold search. ignores_running. Qed.

Lemma enforce_rules_ignores_running (path : pyval) :
  ignores_running (enforce_rules env path).
Proof. unfold enforce_rules. destruct (truthy path); ignores_running. Qed.

Lemma query_database_ignores_running (sql params : pyval) :
  ignores_running (query_database env sql params).
Proof. unfold query_database. ignores_running. Qed.

Lemma get_status_ignores_running : ignores_running (get_status env).
Proof. intros b s. reflexivity. Qed.

(** C3, as the code has it.  No exposed operation consults the running
    flag: with the flag cleared, [search], [enforce_rules],
    [query_database] and [get_status] return what they return while it is
    set and make the same changes; none of them has a not-running error of
    its own. *)
Theorem operations_ignore_running
    (q : string) (fs path sql params : pyval) :
  ignores_running (search env q fs)
  /\ ignores_running (enforce_rules env path)
  /\ ignores_running (query_database env sql params)
  /\ ignores_running (get_status env).
Proof.
  split; [apply search_ignores_running | ].
  split; [apply enforce_rules_ignores_running | ].
  split; [apply query_database_ignores_running | ].
  apply get_status_ignores_running.
Qed.

End PlatformMethods.

Section StoppedPlatform.

Import Platform Notions Scenarios.

(** C3, counterexample.  On a platform whose running flag has been
    cleared, [search] does not fail: it queries the engine, returns the
    results and counts the query. *)
Lemma stopped_platform_still_searches :
  running (platform stopped) = false
  /\ fst (search answering "consciousness" PyNone stopped)
     = Ok [result_dict a_result]
  /\ (forall e : exn,
        fst (search answering "consciousness" PyNone stopped) <> Raise e)
  /\ queries_processed
       (data (snd (search answering "consciousness" PyNone stopped))) = 1.
Proof.
  split; [reflexivity | ]. split; [reflexivity | ].
  split; [ | reflexivity]. intros e H. discriminate H.
Qed.

End StoppedPlatform.

(** ** The monitor loop *)

Section Monitor.

Import Platform Notions Scenarios.

Context {W : Type} (env : Env W).

Ltac run_tick :=
  unfold monitor_tick, bind, call, update_monitoring, after, data; cbn;
  repeat match goal with
         | H : ?f ?w = _ |- context [?f ?w] => rewrite H; cbn
         end;
  rewrite <- ?app_assoc; cbn.

(** C4, as the code has it.  A tick runs the health sweep, the stats fetch
    and the report fetch in that order with no handler around any of them.
    The first sub-check that raises ends the tick with its exception: the
    portions already written keep their new values, the sub-checks after it
    are not called and their portions are left as they were.  When none
    raises, the three portions are written. *)
Theorem monitor_tick_stops_at_first_failure (s : State W) :
  (forall e w1,
      db_layer_health_check_all env (world s) = (Raise e, w1) ->
      monitor_tick env s
      = (Raise e, after s w1 [CallHealthCheckAll] (fun md => md)))
  /\ (forall health w1 e w2,
      db_layer_health_check_all env (world s) = (Ok health, w1) ->
      search_engine_get_stats env w1 = (Raise e, w2) ->
      monitor_tick env s
      = (Raise e,
         after s w2 [CallHealthCheckAll; CallGetStats]
           (set_databases_online (online_count health))))
  /\ (forall health w1 stats w2 e w3,
      db_layer_health_check_all env (world s) = (Ok health, w1) ->
      search_engine_get_stats env w1 = (Ok stats, w2) ->
      rule_engine_generate_report env w2 = (Raise e, w3) ->
      monitor_tick env s
      = (Raise e,
         after s w3 [CallHealthCheckAll; CallGetStats; CallGenerateReport]
           (fun md => set_search_stats stats
                        (set_databases_online (online_count health) md))))
  /\ (forall health w1 stats w2 report w3,
      db_layer_health_check_all env (world s) = (Ok health, w1) ->
      search_engine_get_stats env w1 = (Ok stats, w2) ->
      rule_engine_generate_report env w2 = (Ok report, w3) ->
      monitor_tick env s
      = (Ok tt,
         after s w3 [CallHealthCheckAll; CallGetStats; CallGenerateReport]
           (fun md => set_rule_report report
                        (set_search_stats stats
                           (set_databases_online (online_count health) md))))).
Proof.
  split; [ | split; [ | split]].
  - intros e w1 H1. run_tick. now destruct s as [[md r] w cs].
  - intros health w1 e w2 H1 H2. now run_tick.
  - intros health w1 stats w2 e w3 H1 H2 H3. now run_tick.
  - intros health w1 stats w2 report w3 H1 H2 H3. now run_tick.
Qed.

(** A tick that raises ends the loop: the task finishes with the
    exception and no later tick runs. *)
Lemma monitor_loop_dies (n : nat) (s s' : State W) (e : exn) :
  running (platform s) = true ->
  monitor_tick env s = (Raise e, s') ->
  monitor_loop env (S n) s = (Raise e, s').
Proof. intros Hr Ht. cbn. rewrite Hr. unfold bind. now rewrite Ht. Qed.

End Monitor.

Section MonitorRuns.

Import Platform Notions Scenarios.

Lemma monitor_tick_stops_at_first_failure_witness :
  monitor_tick stats_failing ready
  = (Raise shard_down,
     after ready tt [CallHealthCheckAll; CallGetStats]
       (set_databases_online 1)).
Proof.
  apply (proj1 (proj2 (monitor_tick_stops_at_first_failure stats_failing ready))
           [("main", true); ("monitoring", false)] tt shard_down tt);
    reflexivity.
Defined.

(** C4, counterexample.  When [get_stats] raises, the tick raises too: the
    report fetch that follows is never called and the rule report is not
    written, although [generate_report] would have answered. *)
Lemma failed_stats_fetch_skips_report :
  fst (rule_engine_generate_report stats_failing tt)
  = Ok (PyDict [("rules", PyInt 1)])
  /\ fst (monitor_tick stats_failing ready) = Raise shard_down
  /\ calls (snd (monitor_tick stats_failing ready))
     = [CallHealthCheckAll; CallGetStats]
  /\ rule_report (data (snd (monitor_tick stats_failing ready))) = None.
Proof. repeat split. Qed.

End MonitorRuns.

(** ** Rule scans and the fixed-violations counter *)

Section Rules.

Import Platform Notions Scenarios.

Context {W : Type} (env : Env W).




(** With a path, [enforce_rules] leaves the monitoring data as it found
    them, whatever was fixed. *)
Lemma enforce_rules_file_keeps_data (path : pyval) (s : State W) :
  truthy path = true ->
  data (snd (enforce_rules env path s)) = data s.
Proof.
  intros Hp. unfold enforce_rules, bind, call, data. rewrite Hp. cbn.
  destruct (rule_engine_scan_file env path (world s)) as [[[ | v vs] | e] w1];
    cbn; try reflexivity.
  now destruct (rule_engine_auto_fix_violations env (v :: vs) w1)
    as [[fr | e] w2].
Qed.

(** Without a path, [enforce_rules] adds what the call reports as fixed. *)
Lemma enforce_rules_tree_adds_fixed (path : pyval) (s : State W)
    (fr : FixResults) :
  truthy path = false ->
  fst (enforce_rules env path s) = Ok fr ->
  violations_fixed (data (snd (enforce_rules env path s)))
  = violations_fixed (data s) + fixed fr.
Proof.
  intros Hp. unfold enforce_rules, bind, call, data. rewrite Hp. cbn.
  destruct (rule_engine_scan_directory env "." None (world s))
    as [[violations | e] w1]; cbn; [ | discriminate].
  destruct (flat_map snd violations) as [ | v vs]; cbn.
  - intros [= <-]. cbn. lia.
  - destruct (rule_engine_auto_fix_violations env (v :: vs) w1)
      as [[fr' | e] w2]; cbn; [ | discriminate].
    now intros [= <-].
Qed.

(** C10. In every state of the platform, [get_status] returns, changes
    nothing, reports ['online'] and carries the three counters of the
    monitoring data. *)
Theorem get_status_always_online (s : State W) :
  exists st : PlatformStatus,
    get_status env s = (Ok st, s)
    /\ status st = "online"
    /\ status_databases_online st = databases_online (data s)
    /\ status_queries_processed st = queries_processed (data s)
    /\ status_violations_fixed st = violations_fixed (data s).
Proof. eexists. repeat split. Qed.

End Rules.

Section RuleRuns.

Import Platform Notions Scenarios.


(** C8, at a failing input.  [enforce_rules('a.py')] on a file with one
    violation that is fixed reports [fixed = 1], and the counter of fixed
    violations stays at 0. *)
Theorem enforce_rules_file_misses_count :
  fst (enforce_rules answering (PyStr "a.py") ready)
  = Ok {| fixed := 1; failed := 0 |}
  /\ violations_fixed (data ready) = 0
  /\ violations_fixed (data (snd (enforce_rules answering (PyStr "a.py") ready)))
     = 0.
Proof. repeat split. Qed.

(** The same fix through the whole-tree branch is counted. *)
Example enforce_rules_tree_counts :
  fst (enforce_rules answering PyNone ready)
  = Ok {| fixed := 4; failed := 0 |}
  /\ violations_fixed (data (snd (enforce_rules answering PyNone ready))) = 4.
Proof. repeat split. Qed.

End RuleRuns.

(** ** The handlers of the control API *)

Section Handlers.

Import Platform Notions Scenarios.

Context {W : Type} (env : Env W).

Lemma try_500_catches (body : M W Response) (s s' : State W) (e : exn) :
  body s = (Raise e, s') ->
  try_500 body s = (Responded (SendError 500 (exn_str e)), s').
Proof. intros H. unfold try_500. now rewrite H. Qed.

(** [_handle_enforce] answers 500 with the message when [enforce_rules]
    raises. *)
Lemma handle_enforce_answers_500 (post_data : string) (s s' : State W)
    (data : pyval) (path : option pyval) (e : exn) :
  (if String.eqb post_data "" then Ok (PyDict []) else json_loads env post_data)
  = Ok data ->
  py_get data "file_path" = Ok path ->
  enforce_rules env (default PyNone path) s = (Raise e, s') ->
  _handle_enforce env post_data s
  = (Responded (SendError 500 (exn_str e)), s').
Proof.
  intros Hd Hp He. apply try_500_catches.
  unfold bind, lift. now rewrite Hd, Hp, He.
Qed.

(** [_handle_query] answers 500 with the message when [query_database]
    raises. *)
Lemma handle_query_answers_500 (post_data : string) (s s' : State W)
    (d : list (string * pyval)) (sql : pyval) (e : exn) :
  json_loads env post_data = Ok (PyDict d) ->
  dict_get "sql" d = Some sql ->
  truthy sql = true ->
  query_database env sql (default (PyDict []) (dict_get "params" d)) s
  = (Raise e, s') ->
  _handle_query env post_data s
  = (Responded (SendError 500 (exn_str e)), s').
Proof.
  intros Hd Hsql Ht He. apply try_500_catches.
  unfold bind, lift. rewrite Hd. cbn. rewrite Hsql. cbn. rewrite Ht. cbn.
  now rewrite He.
Qed.

(** [_handle_search] has no handler: what [search] raises leaves it. *)
Lemma handle_search_error_escapes (parsed_query q : string)
    (rest : list string) (s s' : State W) (e : exn) :
  parse_qs env parsed_query !! "q" = Some (q :: rest) ->
  q <> "" ->
  search env q PyNone s = (Raise e, s') ->
  _handle_search env parsed_query s = (Unhandled e, s').
Proof.
  intros Hq Hne He. unfold _handle_search, first_q. rewrite Hq. cbn.
  apply String.eqb_neq in Hne. rewrite Hne. unfold uncaught. now rewrite He.
Qed.

(** C9. [_handle_search] answers 400 and leaves the state as it was, the
    log of calls included, when ['q'] is absent from the parsed query or
    its first value is empty; with a first value that is not empty it calls
    [search] with it and, [search] returning, answers 200 with the
    results. *)
Theorem handle_search_requires_q (parsed_query : string) (s : State W) :
  (parse_qs env parsed_query !! "q" = None \/
   (exists rest, parse_qs env parsed_query !! "q" = Some ("" :: rest)) ->
   _handle_search env parsed_query s
   = (Responded (SendError 400 "Missing query parameter"), s))
  /\ (forall q rest results s',
        parse_qs env parsed_query !! "q" = Some (q :: rest) ->
        q <> "" ->
        search env q PyNone s = (Ok results, s') ->
        _handle_search env parsed_query s
        = (Responded (SendJson 200 (ResultsJson results)), s')).
Proof.
  split.
  - intros [Hq | [rest Hq]]; unfold _handle_search, first_q;
      now rewrite Hq.
  - intros q rest results s' Hq Hne Hs.
    unfold _handle_search, first_q. rewrite Hq. cbn.
    apply String.eqb_neq in Hne. rewrite Hne. unfold uncaught. now rewrite Hs.
Qed.

(** C7, as the code has it.  For a body that parses to a JSON object,
    [_handle_query] reads the query under ['sql'] only: with a truthy value
    there it calls [query_database] and, the call returning, answers 200
    with the rows; with no value there, or a falsy one, it answers 400 and
    calls nothing, whatever the object holds under ['query']. *)
Theorem handle_query_reads_sql_only
    (post_data : string) (d : list (string * pyval)) (s : State W) :
  json_loads env post_data = Ok (PyDict d) ->
  (forall sql rows s',
      dict_get "sql" d = Some sql ->
      truthy sql = true ->
      query_database env sql (default (PyDict []) (dict_get "params" d)) s
      = (Ok rows, s') ->
      _handle_query env post_data s
      = (Responded (SendJson 200 (RowsJson rows)), s'))
  /\ (truthy (default PyNone (dict_get "sql" d)) = false ->
      _handle_query env post_data s
      = (Responded (SendError 400 "Missing SQL query"), s)).
Proof.
  intros Hd. split.
  - intros sql rows s' Hsql Ht Hq.
    unfold _handle_query, try_500, bind, lift. rewrite Hd. cbn.
    rewrite Hsql. cbn. rewrite Ht. cbn. now rewrite Hq.
  - intros Hf.
    unfold _handle_query, try_500, bind, lift. rewrite Hd. cbn.
    now rewrite Hf.
Qed.

End Handlers.

Section HandlerRuns.

Import Platform Notions Scenarios.

Lemma handle_search_requires_q_witness :
  _handle_search answering "q=" ready
  = (Responded (SendError 400 "Missing query parameter"), ready)
  /\ fst (_handle_search answering "q=hello" ready)
     = Responded (SendJson 200 (ResultsJson [result_dict a_result])).
Proof.
  destruct (handle_search_requires_q answering "q=" ready) as [bad _].
  destruct (handle_search_requires_q answering "q=hello" ready) as [_ good].
  split.
  - apply bad. left. reflexivity.
  - erewrite (good "hello" [] [result_dict a_result]);
      [reflexivity | reflexivity | discriminate | reflexivity].
Defined.

(** C5, at a failing input.  On [GET /search?q=hello] with a search engine
    that raises, [_handle_search] sends no response: the exception leaves
    the handler. *)
Theorem handle_search_sends_no_500 :
  fst (search search_failing "hello" PyNone ready) = Raise shard_down
  /\ fst (_handle_search search_failing "q=hello" ready) = Unhandled shard_down
  /\ fst (do_GET search_failing "/search" "q=hello" ready)
     = Unhandled shard_down.
Proof. repeat split. Qed.

(** C7, counterexample.  A body that supplies the query under ['query'],
    [{"query": "SELECT 1"}], is answered 400 and no query is run. *)
Lemma handle_query_rejects_query_key :
  json_loads answering body_query = Ok (PyDict [("query", PyStr "SELECT 1")])
  /\ _handle_query answering body_query ready
     = (Responded (SendError 400 "Missing SQL query"), ready).
Proof. split; reflexivity. Qed.

Lemma handle_query_reads_sql_only_witness :
  fst (_handle_query answering body_sql ready)
  = Responded (SendJson 200 (RowsJson [PyDict [("1", PyInt 1)]]))
  /\ _handle_query answering body_query ready
     = (Responded (SendError 400 "Missing SQL query"), ready).
Proof.
  destruct (handle_query_reads_sql_only answering body_sql
              [("sql", PyStr "SELECT 1")] ready eq_refl) as [good _].
  destruct (handle_query_reads_sql_only answering body_query
              [("query", PyStr "SELECT 1")] ready eq_refl) as [_ bad].
  split.
  - erewrite (good (PyStr "SELECT 1") [PyDict [("1", PyInt 1)]]);
      reflexivity.
  - apply bad. reflexivity.
Defined.

End HandlerRuns.

(** * Further properties *)

(** ** The rule on every kind of id *)

Section RuleOutcomes.

Import Federation Scenarios.

(** X1. Whatever the params map holds, the rule of ['search_index'] either
    returns one of the four shard names or raises [TypeError], and it
    raises exactly when the value under ['doc_id'] is a list or a dict. *)
Theorem search_index_rule_outcomes (rt : Runtime) (params : gmap string pyval) :
  ((exists name, search_index_rule rt params = Ok name
                 /\ In name shard_names)
   /\ (forall l, params !! "doc_id" <> Some (PyList l))
   /\ (forall d, params !! "doc_id" <> Some (PyDict d)))
  \/ ((exists e, search_index_rule rt params = Raise e
                 /\ exn_class e = "TypeError")
      /\ ((exists l, params !! "doc_id" = Some (PyList l))
          \/ (exists d, params !! "doc_id" = Some (PyDict d)))).
Proof.
  unfold search_index_rule.
  destruct (params !! "doc_id") as [[ | b | z | bits | s | l | d] | ]; cbn;
    try (left; split;
         [ eexists; split; [reflexivity | apply search_shard_mod_4]
         | split; intros ? ?; discriminate ]).
  - right. split; [eexists; split; reflexivity | left; eauto].
  - right. split; [eexists; split; reflexivity | right; eauto].
Qed.

(** X2. A params map with no ['doc_id'] is routed as the empty id is: all
    such maps go to one and the same shard, that of [hash('')]. *)
Theorem search_index_rule_missing_id (rt : Runtime)
    (params : gmap string pyval) :
  params !! "doc_id" = None ->
  search_index_rule rt params = search_index_rule rt {["doc_id" := PyStr ""]}
  /\ search_index_rule rt params = Ok (search_shard (str_hash rt "" mod 4)).
Proof.
  intros H. split.
  - unfold search_index_rule. rewrite H, lookup_singleton_eq. reflexivity.
  - apply rule_of_string. now rewrite H.
Qed.

Lemma search_index_rule_missing_id_witness :
  search_index_rule length_runtime {["limit" := PyInt 5]}
  = Ok "search_shard_0".
Proof.
  apply (search_index_rule_missing_id length_runtime {["limit" := PyInt 5]}).
  reflexivity.
Defined.

End RuleOutcomes.

(** ** What the operations write *)

Section Bookkeeping.

Import Platform Notions Frames Scenarios.

Context {W : Type} (env : Env W).

Ltac run_method :=
  unfold bind, call, update_monitoring, ret, lift, data; cbn.

(** X3. A search that returns has counted itself once and written nothing
    else; a search that raises has written nothing.  The list returned has
    one dict per result of the engine, however many there are: the limit of
    50 is passed on to the engine, not applied. *)
Theorem search_counts_successes (q : string) (fs : pyval) (s : State W) :
  (forall dicts,
      fst (search env q fs s) = Ok dicts ->
      data (snd (search env q fs s))
      = set_queries_processed (queries_processed (data s) + 1) (data s))
  /\ (forall e,
        fst (search env q fs s) = Raise e ->
        data (snd (search env q fs s)) = data s)
  /\ (forall results w1,
        search_engine_search env {| query := q; filters := fs; limit := 50 |}
          (world s) = (Ok results, w1) ->
        exists dicts,
          fst (search env q fs s) = Ok dicts
          /\ length dicts = length results).
Proof.
  unfold search. run_method.
  destruct (search_engine_search env _ (world s)) as [[results | e] w1]; cbn.
  - split; [reflexivity | ]. split; [discriminate | ].
    intros results' w1' [= <- <-]. eexists. split; [reflexivity | ].
    apply length_map.
  - split; [discriminate | ]. split; [ | discriminate].
    intros e' _. now destruct s as [[md r] w cs].
Qed.

(** X4. [query_database] writes no monitoring data, whether the federated
    search returns or raises: queries sent through it are not counted in
    [queries_processed]. *)
Theorem query_database_counts_nothing (sql params : pyval) (s : State W) :
  platform (snd (query_database env sql params s)) = platform s.
Proof.
  unfold query_database. run_method.
  now destruct (db_layer_federated_search env sql params (world s))
    as [[rows | e] w1].
Qed.

(** X5. When [enforce_rules] raises, from the scan or from the fix, the
    monitoring data are as they were. *)
Theorem enforce_rules_failure_keeps_data (path : pyval) (s : State W)
    (e : exn) :
  fst (enforce_rules env path s) = Raise e ->
  data (snd (enforce_rules env path s)) = data s.
Proof.
  unfold enforce_rules. destruct (truthy path); run_method.
  - destruct (rule_engine_scan_file env path (world s))
      as [[[ | v vs] | e1] w1]; cbn; try reflexivity.
    now destruct (rule_engine_auto_fix_violations env (v :: vs) w1)
      as [[fr | e2] w2].
  - destruct (rule_engine_scan_directory env "." None (world s))
      as [[violations | e1] w1]; cbn; try reflexivity.
    destruct (flat_map snd violations) as [ | v vs]; cbn; try discriminate.
    destruct (rule_engine_auto_fix_violations env (v :: vs) w1)
      as [[fr | e2] w2]; cbn; [discriminate | reflexivity].
Qed.

(** Any falsy path ([None], the empty string, [0], an empty list or
    dict) makes [enforce_rules] scan the whole tree, as no path does. *)
Theorem enforce_rules_falsy_path_is_tree (path : pyval) :
  truthy path = false ->
  enforce_rules env path = enforce_rules env PyNone.
Proof. intros H. unfold enforce_rules. now rewrite H. Qed.

(** X6. Neither [enforce_rules] nor [_initial_rule_scan] ever calls
    auto-fix with an empty list: each auto-fix call they add to the log has
    at least one violation. *)
Theorem auto_fix_never_called_empty (path : pyval) (s : State W)
    (vs : list Violation) :
  (In (CallAutoFix vs) (calls (snd (enforce_rules env path s))) ->
   In (CallAutoFix vs) (calls s) \/ vs <> [])
  /\ (In (CallAutoFix vs) (calls (snd (_initial_rule_scan env s))) ->
      In (CallAutoFix vs) (calls s) \/ vs <> []).
Proof.
  split.
  - unfold enforce_rules. destruct (truthy path); run_method.
    + destruct (rule_engine_scan_file env path (world s))
        as [[[ | v vs'] | e1] w1]; cbn;
        try (rewrite in_app_iff; cbn;
             intros [H | [H | []]]; [now left | discriminate]).
      destruct (rule_engine_auto_fix_violations env (v :: vs') w1)
        as [[fr | e2] w2]; cbn; rewrite !in_app_iff; cbn;
        (intros [[H | [H | []]] | [H | []]];
         [now left | discriminate | right; now inversion H]).
    + destruct (rule_engine_scan_directory env "." None (world s))
        as [[violations | e1] w1]; cbn;
        try (rewrite in_app_iff; cbn;
             intros [H | [H | []]]; [now left | discriminate]).
      destruct (flat_map snd violations) as [ | v vs']; cbn;
        try (rewrite in_app_iff; cbn;
             intros [H | [H | []]]; [now left | discriminate]).
      destruct (rule_engine_auto_fix_violations env (v :: vs') w1)
        as [[fr | e2] w2]; cbn; rewrite !in_app_iff; cbn;
        (intros [[H | [H | []]] | [H | []]];
         [now left | discriminate | right; now inversion H]).
  - unfold _initial_rule_scan. run_method.
    destruct (rule_engine_scan_directory env "." _ (world s))
      as [[violations | e1] w1]; cbn;
      try (rewrite in_app_iff; cbn;
           intros [H | [H | []]]; [now left | discriminate]).
    destruct (critical_of violations) as [ | v vs']; cbn;
      try (rewrite in_app_iff; cbn;
           intros [H | [H | []]]; [now left | discriminate]).
    destruct (rule_engine_auto_fix_violations env (v :: vs') w1)
      as [[fr | e2] w2]; cbn; rewrite !in_app_iff; cbn;
      (intros [[H | [H | []]] | [H | []]];
       [now left | discriminate | right; now inversion H]).
Qed.

End Bookkeeping.

Section BookkeepingRuns.

Import Platform Notions Frames Scenarios.

Lemma search_counts_successes_witness :
  queries_processed (data ready) = 0
  /\ queries_processed (data (snd (search answering "hello" PyNone ready))) = 1.
Proof.
  split; [reflexivity | ].
  rewrite (proj1 (search_counts_successes answering "hello" PyNone ready)
             [result_dict a_result] eq_refl).
  reflexivity.
Defined.

Lemma auto_fix_never_called_empty_witness :
  In (CallAutoFix [violation "a.py" "critical"]) (calls ready)
  \/ [violation "a.py" "critical"] <> [].
Proof.
  apply (proj1 (auto_fix_never_called_empty answering (PyStr "a.py") ready
                  [violation "a.py" "critical"])).
  right. left. reflexivity.
Defined.

End BookkeepingRuns.

(** ** Scans, fixes and the counter *)

Section ScansAndFixes.

Import Platform Notions Frames Scenarios MoreScenarios.

Context {W : Type} (env : Env W).



(** X8. The startup scan assigns the counter of fixed violations: when it
    finds critical violations and the fix returns, the counter is the
    number that fix reports, whatever it was before; when it finds none,
    or when the scan or the fix raises, the monitoring data are as they
    were. *)
Theorem initial_scan_assigns_counter (s : State W) :
  (forall violations w1 fr w2,
      rule_engine_scan_directory env "." (Some ["*.py"; "*.js"]) (world s)
      = (Ok violations, w1) ->
      critical_of violations <> [] ->
      rule_engine_auto_fix_violations env (critical_of violations) w1
      = (Ok fr, w2) ->
      fst (_initial_rule_scan env s) = Ok tt
      /\ data (snd (_initial_rule_scan env s))
         = set_violations_fixed (fixed fr) (data s))
  /\ (forall violations w1,
      rule_engine_scan_directory env "." (Some ["*.py"; "*.js"]) (world s)
      = (Ok violations, w1) ->
      critical_of violations = [] ->
      fst (_initial_rule_scan env s) = Ok tt
      /\ data (snd (_initial_rule_scan env s)) = data s)
  /\ (forall e,
      fst (_initial_rule_scan env s) = Raise e ->
      data (snd (_initial_rule_scan env s)) = data s).
Proof.
  unfold _initial_rule_scan, bind, call, update_monitoring, ret, data.
  split; [ | split].
  - intros violations w1 fr w2 Hscan Hne Hfix. cbn. rewrite Hscan. cbn.
    destruct (critical_of violations) as [ | v vs] eqn:Hc; [congruence | ].
    cbn. rewrite Hfix. cbn. split; reflexivity.
  - intros violations w1 Hscan Hc. cbn. rewrite Hscan. cbn. rewrite Hc.
    cbn. split; reflexivity.
  - intros e. cbn.
    destruct (rule_engine_scan_directory env "." _ (world s))
      as [[violations | e1] w1]; cbn; [ | reflexivity].
    destruct (critical_of violations) as [ | v vs]; cbn; [discriminate | ].
    destruct (rule_engine_auto_fix_violations env (v :: vs) w1)
      as [[fr | e2] w2]; cbn; [discriminate | reflexivity].
Qed.

End ScansAndFixes.

Section ScansAndFixesRuns.

Import Platform Notions Frames Scenarios MoreScenarios.

Lemma enforce_rules_failure_keeps_data_witness :
  data (snd (enforce_rules scan_failing (PyStr "a.py") seven_fixed))
  = data seven_fixed.
Proof.
  apply (enforce_rules_failure_keeps_data scan_failing (PyStr "a.py")
           seven_fixed shard_down).
  reflexivity.
Defined.

Lemma enforce_rules_falsy_path_is_tree_witness :
  enforce_rules answering (PyStr "") = enforce_rules answering PyNone.
Proof.
  apply (enforce_rules_falsy_path_is_tree answering (PyStr "")).
  reflexivity.
Defined.


Lemma initial_scan_assigns_counter_witness :
  violations_fixed (data seven_fixed) = 7
  /\ violations_fixed (data (snd (_initial_rule_scan answering seven_fixed)))
     = 2.
Proof.
  split; [reflexivity | ].
  destruct (proj1 (initial_scan_assigns_counter answering seven_fixed)
              tree_findings tt {| fixed := 2; failed := 0 |} tt)
    as [_ written]; [reflexivity | discriminate | reflexivity | ].
  rewrite written. reflexivity.
Defined.

End ScansAndFixesRuns.

(** ** The monitor loop and the status it feeds *)

Section MonitorLoop.

Import Platform Notions Frames Scenarios MoreScenarios.

Context {W : Type} (env : Env W).

(** What a tick leaves alone, and what a completed tick has logged. *)
Lemma monitor_tick_frame (s : State W) :
  running (platform (snd (monitor_tick env s))) = running (platform s)
  /\ queries_processed (data (snd (monitor_tick env s)))
     = queries_processed (data s)
  /\ violations_fixed (data (snd (monitor_tick env s)))
     = violations_fixed (data s)
  /\ start_time (data (snd (monitor_tick env s))) = start_time (data s)
  /\ (fst (monitor_tick env s) = Ok tt ->
      calls (snd (monitor_tick env s)) = (calls s ++ tick_calls)%list).
Proof.
  unfold monitor_tick, bind, call, update_monitoring, data, tick_calls. cbn.
  destruct (db_layer_health_check_all env (world s)) as [[health | e] w1];
    cbn; [ | repeat split; discriminate].
  destruct (search_engine_get_stats env w1) as [[stats | e] w2];
    cbn; [ | repeat split; discriminate].
  destruct (rule_engine_generate_report env w2) as [[report | e] w3];
    cbn; [ | repeat split; discriminate].
  repeat split. intros _. now rewrite <- !app_assoc.
Qed.

(** X9. However many ticks the monitor loop runs and however they end,
    it leaves the running flag, the start time and the two counters
    [queries_processed] and [violations_fixed] as they were. *)
Theorem monitor_loop_keeps_counters (n : nat) (s : State W) :
  running (platform (snd (monitor_loop env n s))) = running (platform s)
  /\ queries_processed (data (snd (monitor_loop env n s)))
     = queries_processed (data s)
  /\ violations_fixed (data (snd (monitor_loop env n s)))
     = violations_fixed (data s)
  /\ start_time (data (snd (monitor_loop env n s))) = start_time (data s).
Proof.
  revert s. induction n as [ | n IH]; intros s; cbn; [repeat split | ].
  destruct (running (platform s)) eqn:Hr; cbn; [ | repeat split; exact Hr].
  unfold bind.
  pose proof (monitor_tick_frame s) as (Fr & Fq & Fv & Ft & _).
  destruct (monitor_tick env s) as [[[] | e] s1]; cbn in *.
  - destruct (IH s1) as (Ir & Iq & Iv & It).
    rewrite Ir, Iq, Iv, It, Fr, Fq, Fv, Ft. repeat split. exact Hr.
  - rewrite Fr, Fq, Fv, Ft. repeat split. exact Hr.
Qed.

(** X10. With the flag cleared the loop ends at its first test, calling
    nothing and changing nothing; with the flag set, a run of [n] ticks
    that ends without an exception has made exactly the three calls of a
    tick [n] times over, in order. *)
Theorem monitor_loop_calls (n : nat) (s : State W) :
  (running (platform s) = false -> monitor_loop env n s = (Ok tt, s))
  /\ (running (platform s) = true ->
      fst (monitor_loop env n s) = Ok tt ->
      calls (snd (monitor_loop env n s))
      = (calls s ++ List.concat (repeat tick_calls n))%list).
Proof.
  split.
  - intros Hr. destruct n; cbn; [reflexivity | now rewrite Hr].
  - revert s. induction n as [ | n IH]; intros s Hr Hok; cbn.
    + now rewrite app_nil_r.
    + cbn in Hok. rewrite Hr in *. unfold bind in *.
      pose proof (monitor_tick_frame s) as (Fr & _ & _ & _ & Fc).
      destruct (monitor_tick env s) as [[[] | e] s1]; cbn in *;
        [ | discriminate].
      rewrite (IH s1); [ | congruence | exact Hok].
      rewrite Fc by reflexivity. now rewrite <- app_assoc.
Qed.

(** X11. After a tick that completed, [get_status] reports what that tick
    fetched: the number of stores that answered the sweep, the search
    stats and the rule report.  Before any tick the two reports are empty
    dicts. *)
Theorem status_reports_last_tick (s : State W) :
  (forall health w1 stats w2 report w3,
      db_layer_health_check_all env (world s) = (Ok health, w1) ->
      search_engine_get_stats env w1 = (Ok stats, w2) ->
      rule_engine_generate_report env w2 = (Ok report, w3) ->
      exists st,
        fst (get_status env (snd (monitor_tick env s))) = Ok st
        /\ status_databases_online st = online_count health
        /\ status_search_stats st = stats
        /\ status_rule_report st = report)
  /\ (search_stats (data s) = None ->
      rule_report (data s) = None ->
      exists st,
        fst (get_status env s) = Ok st
        /\ status_search_stats st = PyDict []
        /\ status_rule_report st = PyDict []).
Proof.
  split.
  - intros health w1 stats w2 report w3 H1 H2 H3.
    unfold monitor_tick, bind, call, update_monitoring. cbn.
    rewrite H1. cbn. rewrite H2. cbn. rewrite H3. cbn.
    eexists. repeat split.
  - intros Hs Hr. unfold get_status, data in *. cbn.
    eexists. split; [reflexivity | ]. cbn. now rewrite Hs, Hr.
Qed.

End MonitorLoop.

Section MonitorLoopRuns.

Import Platform Notions Frames Scenarios MoreScenarios.

Lemma monitor_loop_calls_witness :
  monitor_loop answering 5 stopped = (Ok tt, stopped)
  /\ calls (snd (monitor_loop answering 2 ready))
     = [CallHealthCheckAll; CallGetStats; CallGenerateReport;
        CallHealthCheckAll; CallGetStats; CallGenerateReport].
Proof.
  destruct (monitor_loop_calls answering 5 stopped) as [idle _].
  destruct (monitor_loop_calls answering 2 ready) as [_ busy].
  split; [apply idle; reflexivity | apply busy; reflexivity].
Defined.

Lemma status_reports_last_tick_witness :
  exists st,
    fst (get_status answering (snd (monitor_tick answering ready))) = Ok st
    /\ status_databases_online st = 1
    /\ status_search_stats st = PyDict [("documents", PyInt 3)]
    /\ status_rule_report st = PyDict [("rules", PyInt 1)].
Proof.
  apply (proj1 (status_reports_last_tick answering ready)
           [("main", true); ("monitoring", false)] tt
           (PyDict [("documents", PyInt 3)]) tt
           (PyDict [("rules", PyInt 1)]) tt); reflexivity.
Defined.

End MonitorLoopRuns.

(** ** Routes and bodies *)

Section Routes.

Import Platform Notions Frames Scenarios MoreScenarios.

Context {W : Type} (env : Env W).

(** X12. [do_GET] serves ['/status'] and ['/search'] only and [do_POST]
    ['/enforce'] and ['/query'] only: any other path, the routes of the
    other method included, is answered 404 and the platform is not
    touched. *)
Theorem unknown_routes_get_404 (path arg : string) (s : State W) :
  (path <> "/status" -> path <> "/search" ->
   do_GET env path arg s = (Responded (SendError 404 "Not Found"), s))
  /\ (path <> "/enforce" -> path <> "/query" ->
      do_POST env path arg s = (Responded (SendError 404 "Not Found"), s)).
Proof.
  split; intros H1 H2; apply String.eqb_neq in H1, H2.
  - unfold do_GET. now rewrite H1, H2.
  - unfold do_POST. now rewrite H1, H2.
Qed.



(** X14. [_handle_query] answers 500, and runs no query, for a body that
    does not parse (the empty body is handed to the parser like any
    other) and for a body that parses to something that is not a JSON
    object. *)
Theorem handle_query_bad_body (post_data : string) (s : State W) :
  (forall e,
      json_loads env post_data = Raise e ->
      _handle_query env post_data s
      = (Responded (SendError 500 (exn_str e)), s))
  /\ (forall v,
      json_loads env post_data = Ok v ->
      (forall d, v <> PyDict d) ->
      exists message,
        _handle_query env post_data s
        = (Responded (SendError 500 message), s)).
Proof.
  unfold _handle_query, try_500, bind, lift. split.
  - intros e H. now rewrite H.
  - intros v H Hv. rewrite H. cbn.
    destruct v; cbn; eauto. now destruct (Hv d).
Qed.

(** X15. [_handle_enforce] takes an empty body for the empty object
    without parsing it, and a body whose object has no ['file_path'], or a
    falsy one, is served exactly as the empty body is: by a scan of the
    whole tree. *)
Theorem handle_enforce_defaults_to_tree
    (post_data : string) (d : list (string * pyval)) (s : State W) :
  json_loads env post_data = Ok (PyDict d) ->
  truthy (default PyNone (dict_get "file_path" d)) = false ->
  _handle_enforce env post_data s = _handle_enforce env "" s
  /\ _handle_enforce env "" s
     = try_500 (bind (enforce_rules env PyNone)
                  (fun results => ret (SendJson 200 (FixJson results)))) s.
Proof.
  intros Hd Hf. split.
  - unfold _handle_enforce, try_500, bind, lift.
    destruct (String.eqb post_data ""); [reflexivity | ].
    rewrite Hd. cbn [py_get]. unfold enforce_rules.
    rewrite Hf. reflexivity.
  - reflexivity.
Qed.

(** [_handle_status] answers 200 with status ['online'] in every
    state and changes nothing: the handler has no failing path. *)
Theorem handle_status_always_200 (s : State W) :
  exists st,
    _handle_status env s = (Responded (SendJson 200 (StatusJson st)), s)
    /\ status st = "online"
    /\ status_queries_processed st = queries_processed (data s)
    /\ status_violations_fixed st = violations_fixed (data s).
Proof. eexists. repeat split. Qed.

End Routes.

Section RoutesRuns.

Import Platform Notions Frames Scenarios MoreScenarios.

Lemma unknown_routes_get_404_witness :
  do_GET answering "/enforce" "" ready
  = (Responded (SendError 404 "Not Found"), ready)
  /\ do_POST answering "/search" "" ready
     = (Responded (SendError 404 "Not Found"), ready).
Proof.
  destruct (unknown_routes_get_404 answering "/enforce" "" ready) as [get _].
  destruct (unknown_routes_get_404 answering "/search" "" ready) as [_ post].
  split; [apply get | apply post]; discriminate.
Defined.

Lemma handle_query_bad_body_witness :
  _handle_query answering "" ready
  = (Responded (SendError 500 "Expecting value"), ready).
Proof.
  apply (proj1 (handle_query_bad_body answering "" ready)
           (Exn "JSONDecodeError" "Expecting value")).
  reflexivity.
Defined.

Lemma handle_enforce_defaults_to_tree_witness :
  _handle_enforce answering body_sql ready = _handle_enforce answering "" ready.
Proof.
  apply (handle_enforce_defaults_to_tree answering body_sql
           [("sql", PyStr "SELECT 1")] ready); reflexivity.
Defined.

End RoutesRuns.

(** ** Indexing the code base *)

Section Indexing.

Import Platform Startup Notions Frames Scenarios MoreScenarios.

Lemma substring_append_front (word post : string) :
  substring 0 (String.length word) (word +:+ post) = word.
Proof.
  induction word as [ | c word IH]; simpl;
    [now destruct post | now rewrite IH].
Qed.

Lemma substring_append_middle (pre word post : string) :
  substring (String.length pre) (String.length word)
    (pre +:+ word +:+ post) = word.
Proof.
  induction pre as [ | c pre IH]; simpl; [ | exact IH].
  change (substring 0 (String.length word) (word +:+ post) = word).
  apply substring_append_front.
Qed.

Lemma py_in_spec (needle hay : string) :
  needle <> "" ->
  py_in needle hay = true
  <-> exists m, substring m (String.length needle) hay = needle.
Proof.
  intros Hne. unfold py_in.
  destruct (String.index 0 needle hay) as [m | ] eqn:Hi.
  - split; [ | reflexivity]. intros _. exists m.
    eapply index_correct1. exact Hi.
  - split; [discriminate | ]. intros [m Hm]. exfalso.
    eapply (index_correct3 0 m); eauto. lia.
Qed.

Lemma skip_words_not_empty (word : string) : In word skip_words -> word <> "".
Proof. cbn. intros [<- | [<- | [<- | []]]]; discriminate. Qed.

(** X16. A path is passed over by [_index_codebase] exactly when one of
    ['__pycache__'], ['venv'], ['.git'] occurs in it at some position:
    the test is on substrings of the whole path, so any path that
    contains one of the three words anywhere is passed over. *)
Theorem skipped_iff_substring (file_path : string) :
  (skipped file_path = true
   <-> exists word m,
         In word skip_words
         /\ substring m (String.length word) file_path = word)
  /\ (forall pre word post,
        In word skip_words ->
        file_path = pre +:+ word +:+ post ->
        skipped file_path = true).
Proof.
  assert (Hiff : skipped file_path = true
                 <-> exists word m,
                       In word skip_words
                       /\ substring m (String.length word) file_path = word).
  { unfold skipped. rewrite existsb_exists. split.
    - intros (word & Hin & Hp).
      apply py_in_spec in Hp as [m Hm]; [ | now apply skip_words_not_empty].
      eauto.
    - intros (word & m & Hin & Hm). exists word. split; [exact Hin | ].
      apply py_in_spec; [now apply skip_words_not_empty | eauto]. }
  split; [exact Hiff | ].
  intros pre word post Hin ->. apply Hiff.
  exists word, (String.length pre). split; [exact Hin | ].
  apply substring_append_middle.
Qed.

Context {W : Type} (files : Files W).

Lemma same_platform_refl (s : State W) : same_platform s s.
Proof. split; reflexivity. Qed.

Lemma same_platform_trans (a b c : State W) :
  same_platform a b -> same_platform b c -> same_platform a c.
Proof. intros [H1 H2] [H3 H4]. split; congruence. Qed.

Lemma respects_bind {A B : Type} (R : State W -> State W -> Prop)
    (m : M W A) (k : A -> M W B) :
  (forall a b c, R a b -> R b c -> R a c) ->
  respects R m -> (forall a, respects R (k a)) -> respects R (bind m k).
Proof.
  intros Htrans Hm Hk s. unfold bind.
  pose proof (Hm s) as H1.
  destruct (m s) as [[a | e] s1]; cbn in *; [ | exact H1].
  eapply Htrans; [exact H1 | apply Hk].
Qed.

Lemma on_world_same_platform {A : Type} (f : W -> res A * W) :
  respects same_platform (on_world f).
Proof. intros s. unfold on_world. now destruct (f (world s)). Qed.

Lemma lift_same_platform {A : Type} (r : res A) :
  respects same_platform (lift r : M W A).
Proof. intros s. split; reflexivity. Qed.

Lemma index_file_same_platform (file_path : string) :
  respects same_platform (index_file files file_path).
Proof.
  unfold index_file.
  repeat (apply respects_bind;
          [ exact same_platform_trans
          | first [apply on_world_same_platform | apply lift_same_platform]
          | intros ? ]).
  apply on_world_same_platform.
Qed.

Lemma kept_cons (p : string) (paths : list string) :
  kept (p :: paths) = if skipped p then kept paths else p :: kept paths.
Proof. unfold kept. cbn [List.filter]. now destruct (skipped p). Qed.

Lemma index_files_same_platform (paths : list string) (count : Z) :
  respects same_platform (index_files files paths count).
Proof.
  revert count. induction paths as [ | p paths IH]; intros count s;
    cbn [index_files].
  - apply same_platform_refl.
  - destruct (skipped p); [apply IH | ].
    pose proof (index_file_same_platform p s) as H1.
    destruct (index_file files p s) as [[[] | e] s1]; cbn [snd] in H1;
      (eapply same_platform_trans; [exact H1 | apply IH]).
Qed.




(** X18. Paths that are passed over count for nothing: the loop of
    [_index_codebase] does on a list of paths what it does on the list
    without them. *)
Theorem index_files_ignores_skipped (paths : list string) (count : Z)
    (s : State W) :
  index_files files paths count s = index_files files (kept paths) count s.
Proof.
  revert count s. induction paths as [ | p paths IH]; intros count s;
    [reflexivity | ].
  rewrite kept_cons. cbn [index_files].
  destruct (skipped p) eqn:Hp; [apply IH | ].
  cbn [index_files]. rewrite Hp.
  destruct (index_file files p s) as [[[] | e] s1]; apply IH.
Qed.

Lemma index_codebase_same_platform :
  respects same_platform (_index_codebase files).
Proof.
  intros s. unfold _index_codebase.
  destruct (rglob files "*.py" (world s)) as [[paths stop] w1].
  pose proof (index_files_same_platform paths 0
                {| platform := platform s; world := w1; calls := calls s |})
    as H.
  now destruct stop.
Qed.

End Indexing.

Section IndexingRuns.

Import Platform Startup Notions Frames Scenarios MoreScenarios.

Lemma skipped_iff_substring_witness :
  skipped ".github/scripts/check.py" = true.
Proof.
  apply (proj2 (skipped_iff_substring ".github/scripts/check.py")
           "" ".git" "hub/scripts/check.py").
  - cbn. tauto.
  - reflexivity.
Defined.


End IndexingRuns.

(** ** [initialize] *)

Section Initialize.

Import Platform Startup Notions Frames Scenarios MoreScenarios.

Context {W : Type} (env : Env W) (files : Files W).

Lemma same_flag_refl (s : State W) : same_flag_and_queries s s.
Proof. repeat split. Qed.

Lemma same_flag_trans (a b c : State W) :
  same_flag_and_queries a b -> same_flag_and_queries b c ->
  same_flag_and_queries a c.
Proof. intros (H1 & H2 & H3) (H4 & H5 & H6). repeat split; congruence. Qed.

Lemma same_platform_same_flag (s s' : State W) :
  same_platform s s' -> same_flag_and_queries s s'.
Proof. intros [H _]. unfold same_flag_and_queries. now rewrite H. Qed.

Lemma on_world_same_flag {A : Type} (f : W -> res A * W) :
  respects same_flag_and_queries (on_world f).
Proof. intros s. apply same_platform_same_flag, on_world_same_platform. Qed.

Lemma call_same_flag {A : Type} (c : Call) (f : W -> res A * W) :
  respects same_flag_and_queries (call c f).
Proof. intros s. unfold call. destruct (f (world s)). repeat split. Qed.

Lemma ret_same_flag {A : Type} (a : A) :
  respects same_flag_and_queries (ret a : M W A).
Proof. intros s. repeat split. Qed.

Lemma add_shards_same_flag (shards : list Z) :
  respects same_flag_and_queries (add_shards files shards).
Proof.
  induction shards as [ | i shards IH]; cbn [add_shards].
  - apply ret_same_flag.
  - apply respects_bind;
      [exact same_flag_trans | apply on_world_same_flag | intros _; exact IH].
Qed.

Lemma setup_databases_same_flag (rt : Runtime) :
  respects same_flag_and_queries (_setup_databases env files rt).
Proof.
  unfold _setup_databases.
  repeat (apply respects_bind;
          [ exact same_flag_trans
          | first [ apply on_world_same_flag | apply add_shards_same_flag
                  | apply call_same_flag ]
          | intros ? ]).
  intros s. repeat split.
Qed.

Lemma initial_rule_scan_same_flag :
  respects same_flag_and_queries (_initial_rule_scan env).
Proof.
  unfold _initial_rule_scan.
  apply respects_bind;
    [exact same_flag_trans | apply call_same_flag | intros violations].
  destruct (critical_of violations); [apply ret_same_flag | ].
  apply respects_bind;
    [exact same_flag_trans | apply call_same_flag | intros fr].
  intros s. repeat split.
Qed.

(** X19. [initialize] sets the running flag as its last step and nowhere
    else: when it returns the flag is set, and when any step raises the
    flag is as it was, so a failed start-up never leaves a platform that
    looks started.  Either way it writes neither the query counter nor the
    start time. *)
Theorem initialize_sets_flag_last (rt : Runtime) (s : State W) :
  (fst (initialize env files rt s) = Ok tt ->
   running (platform (snd (initialize env files rt s))) = true)
  /\ (forall e,
        fst (initialize env files rt s) = Raise e ->
        running (platform (snd (initialize env files rt s)))
        = running (platform s))
  /\ queries_processed (data (snd (initialize env files rt s)))
     = queries_processed (data s)
  /\ start_time (data (snd (initialize env files rt s)))
     = start_time (data s).
Proof.
  unfold initialize, bind, data.
  pose proof (setup_databases_same_flag rt s) as F1.
  destruct (_setup_databases env files rt s) as [[[] | e1] s1]; cbn [snd] in F1;
    [ | destruct F1 as (R & Q & T);
        repeat split; try discriminate; cbn; auto ].
  pose proof (same_platform_same_flag _ _
                (index_codebase_same_platform files s1)) as F2.
  pose proof (same_flag_trans _ _ _ F1 F2) as F12. clear F1 F2.
  destruct (_index_codebase files s1) as [[n | e2] s2]; cbn [snd] in F12;
    [ | destruct F12 as (R & Q & T);
        repeat split; try discriminate; cbn; auto ].
  pose proof (same_flag_trans _ _ _ F12 (initial_rule_scan_same_flag s2))
    as F123. clear F12.
  destruct (_initial_rule_scan env s2) as [[[] | e3] s3]; cbn [snd] in F123;
    destruct F123 as (R & Q & T);
    repeat split; try discriminate; cbn; auto.
Qed.

(** X20. A failure while the stores are registered, the rule is added or
    the first health sweep runs ends [initialize] there: it raises the same
    exception and stops in the same state, with no file indexed, no rule
    scan made and the monitor not started. *)
Theorem initialize_aborts_when_setup_fails (rt : Runtime) (s : State W)
    (e : exn) :
  fst (_setup_databases env files rt s) = Raise e ->
  initialize env files rt s = (Raise e, snd (_setup_databases env files rt s)).
Proof.
  intros H. unfold initialize, bind.
  destruct (_setup_databases env files rt s) as [[[] | e1] s1]; cbn in *;
    congruence.
Qed.

End Initialize.

Section InitializeRuns.

Import Platform Startup Notions Frames Scenarios MoreScenarios.

Lemma initialize_sets_flag_last_witness :
  running (platform fresh) = false
  /\ running (platform
                (snd (initialize answering disk length_runtime fresh))) = true
  /\ running (platform
                (snd (initialize answering disk_refusing length_runtime fresh)))
     = false.
Proof.
  destruct (initialize_sets_flag_last answering disk length_runtime fresh)
    as [started _].
  destruct (initialize_sets_flag_last answering disk_refusing length_runtime
              fresh) as (_ & failed & _).
  split; [reflexivity | ]. split.
  - apply started. reflexivity.
  - apply (failed (Exn "OperationalError" "unable to open database file")).
    reflexivity.
Defined.

Lemma initialize_aborts_when_setup_fails_witness :
  initialize answering disk_refusing length_runtime fresh
  = (Raise (Exn "OperationalError" "unable to open database file"), fresh).
Proof.
  apply (initialize_aborts_when_setup_fails answering disk_refusing
           length_runtime fresh).
  reflexivity.
Defined.

End InitializeRuns.
